(** * pytorch-lightning-template: dataset dispatch and test driver

    A shallow embedding of [datasets/load_dataset.py] and [test.py].

    Both files are glue over external libraries, so the embedding is
    effect-centred: every statement that reaches outside the file (a call
    into a library or into another module of the repository, a [print], an
    [exit]) is an action of a small monad [M] that threads a [world] and
    ends in an [outcome].  A call whose result the code consumes is
    answered by the environment (a parameter of the embedding) and recorded,
    with its arguments, in the world's trace; the drawing calls of
    [test.py] act on the world's figure and files. *)

From Stdlib Require Import ZArith QArith.
From stdpp Require Import base option list strings gmap.

Local Open Scope Z_scope.
Local Open Scope string_scope.

(** ** Python-level notions shared by the two files *)

Module Py.

(** An exception instance: its class name and its message. *)
Record exn := Exn { exc_type : string; exc_msg : string }.

(** What evaluating an unbound global name raises. *)
Definition NameError (name : string) : exn :=
  Exn "NameError" ("name '" ++ name ++ "' is not defined").

(** How a piece of code ends: it returns a value, the process leaves
    through [exit(code)], or an exception propagates. *)
Inductive outcome (A : Type) : Type :=
| Return (a : A)
| Exit (code : Z)
| Raise (e : exn).
Arguments Return {A} a.
Arguments Exit {A} code.
Arguments Raise {A} e.

(** Python's [==] on [str]. *)
Definition str_eq (a b : string) : bool := String.eqb a b.

(** [needle in haystack] on [str]. *)
Definition contains (needle haystack : string) : bool :=
  match String.index 0 needle haystack with
  | Some _ => true
  | None => false
  end.

(** Objects owned by the external libraries are opaque to the scripts,
    which only pass them along: an identity stands for each. *)
Inductive tensor := Tensor (id : N).
Inductive loader := Loader (id : N).
Inductive torch_module := TorchModule (id : N).
Inductive dataset_object := DatasetObject (id : N).
Inductive checkpoint := Checkpoint (id : N).

End Py.
Export Py.

(** ** The configuration record *)

(** Modelled from the spec: [utils/config.py] ([Config], [Datasets]) is not
    part of the sources.  The fields are the attributes the two files read;
    their types follow the configuration file format of the spec (section 6).
    [validation_size] ("numeric") and [weights] are only ever passed along. *)
Record Config := {
  dataset : string;
  network : string;
  batch_size : Z;
  validation_size : Q;
  augment : bool;
  seed : Z;
  include_top : bool;
  weights : option string;
  weights_dir : string;
  weights_path : string;
}.

(** Modelled from the spec: the closed enumeration of dataset identifiers
    {CIFAR10, CIFAR100, CIFAR10_128}, string-valued ([test.py] compares the
    same field with a [str] literal). *)
Module Datasets.
Definition CIFAR10 : string := "CIFAR10".
Definition CIFAR100 : string := "CIFAR100".
Definition CIFAR10_128 : string := "CIFAR10_128".
Definition members : list string := [CIFAR10; CIFAR100; CIFAR10_128].
End Datasets.

(** The dataset implementations [datasets.<X>.<X>] that can be imported. *)
Inductive dataset_class := cls_CIFAR10 | cls_CIFAR100 | cls_CIFAR10_128.

Definition class_name (c : dataset_class) : string :=
  match c with
  | cls_CIFAR10 => "CIFAR10"
  | cls_CIFAR100 => "CIFAR100"
  | cls_CIFAR10_128 => "CIFAR10_128"
  end.

(** ** Worlds, traces and the script monad *)

(** A batch of the test loader: (inputs, target). *)
Definition batch : Type := tensor * tensor.

(** The classification metrics of torchmetrics, seen as accumulators: the
    constructor arguments and the observations received through [update]. *)
Record metric := {
  metric_class : string;
  task : string;
  num_classes : Z;
  average : option string;
  observations : list (tensor * tensor);
}.

(** The keyword arguments of [sns.heatmap] as [test.py] passes them. *)
Record heatmap := {
  hm_data : tensor;
  hm_annot : bool;
  hm_fmt : string;
  hm_cmap : string;
  hm_xticklabels : list string;
  hm_yticklabels : list string;
}.

(** A pyplot figure with its single axes. *)
Record figure := {
  figsize : Q * Q;
  fig_heatmap : option heatmap;
  x_labelrotation : option Z;
  xlabel : option string;
  ylabel : option string;
  title : option string;
}.

(** Calls that leave the file, in the order they happen.  ([print] is
    [Stdout]; [metric.compute()] is [ComputeMetric]; [self.metrics.update]
    and [self.confusion_matrix.update] are [UpdateMetrics] and
    [UpdateConfusionMatrix].) *)
Inductive event :=
| Stdout (line : string)
| ArgparseError (message : string)
| ImportFrom (module_ name : string)
| NewDataset (c : dataset_class) (args : Z * Q * bool)
| ParseJson (path : option string)
| SeedEverything (seed : Z)
| GenerateDataset (batch_size : Z) (validation_size : Q) (augment : bool)
| NewResNet50 (include_top : bool) (weights : option string) (num_classes : Z)
| NewMetric (m : metric)
| LoadCheckpoint (path : string)
| LoadStateDict (ckpt : checkpoint) (net : torch_module)
| Forward (net : torch_module) (inputs : tensor)
| Criterion (output target : tensor)
| UpdateMetrics (output target : tensor)
| UpdateConfusionMatrix (output target : tensor)
| ComputeMetric (m : metric)
| SaveFig (fname : string)
| CloseFig.

(** [files] holds the images on disk, by name: what the script writes
    through pyplot.  What a library writes for itself (the log directory of
    Lightning's default logger, download caches) is not represented. *)
Record world := World {
  trace : list event;
  current_figure : option figure;
  files : gmap string figure;
}.

Definition M (A : Type) : Type := world → outcome A * world.

Definition ret {A} (a : A) : M A := λ w, (Return a, w).

Definition bind {A B} (k : A → M B) (m : M A) : M B := λ w,
  match m w with
  | (Return a, w') => k a w'
  | (Exit c, w') => (Exit c, w')
  | (Raise e, w') => (Raise e, w')
  end.

(** stdpp's monad notation: [x ← m; k] and [m;; k]. *)
#[export] Instance M_ret : MRet M := @ret.
#[export] Instance M_bind : MBind M := @bind.

Definition log (ev : event) : M unit := λ w,
  (Return (), World (trace w ++ [ev]) (current_figure w) (files w)).

(** [print(line)] *)
Definition print (line : string) : M unit := log (Stdout line).

(** [exit(code)] *)
Definition exit {A} (code : Z) : M A := λ w, (Exit code, w).

(** [raise e], also what an unhandled failure of a callee looks like. *)
Definition raise {A} (e : exn) : M A := λ w, (Raise e, w).

(** The answer of a callee, placed in the script's control flow. *)
Definition answer {A} (o : outcome A) : M A := λ w, (o, w).

(** A call out of the file: recorded, then answered. *)
Definition call {A} (ev : event) (o : outcome A) : M A := log ev;; answer o.

(** pyplot keeps a current figure; the axes the script holds belong to it. *)
Definition set_figure (f : option figure) : M unit := λ w,
  (Return (), World (trace w) f (files w)).

Definition on_axes (f : figure → figure) : M unit := λ w,
  (Return (), World (trace w) (f <$> current_figure w) (files w)).

Definition write_file (fname : string) (content : figure) : M unit := λ w,
  (Return (), World (trace w) (current_figure w) (<[fname := content]> (files w))).

(** The lines written by [print], oldest first. *)
Definition printed (w : world) : list string :=
  omap (λ ev, match ev with Stdout s => Some s | _ => None end) (trace w).

(** [w] with [evs] appended to its trace. *)
Definition logged (w : world) (evs : list event) : world :=
  World (trace w ++ evs) (current_figure w) (files w).

(** ** datasets/load_dataset.py *)

Module LoadDataset.

Section WithClasses.

(** The constructors of the dataset classes ([datasets/CIFAR10.py] and
    its siblings are not part of the sources): what
    [Dataset(batch_size, validation_size, augment)] gives. *)
Variable Dataset_new : dataset_class → Z → Q → bool → outcome dataset_object.

(** [from datasets.<X> import <X> as Dataset] *)
Definition import_class (c : dataset_class) : M dataset_class :=
  log (ImportFrom ("datasets." ++ class_name c) (class_name c));; mret c.

Definition invalid_dataset_message : string :=
  "[ERROR] Invalid dataset passed in configuration file. Exiting...".

Definition load_dataset (config : Config) : M dataset_object :=
  Dataset ←
    (if str_eq (dataset config) Datasets.CIFAR10 then
       import_class cls_CIFAR10
     else if str_eq (dataset config) Datasets.CIFAR100 then
       import_class cls_CIFAR100
     else if str_eq (dataset config) Datasets.CIFAR10_128 then
       import_class cls_CIFAR10_128
     else
       print invalid_dataset_message;;
       exit 1);
  dataset_ ←
    call (NewDataset Dataset
            (batch_size config, validation_size config, augment config))
         (Dataset_new Dataset
            (batch_size config) (validation_size config) (augment config));
  mret dataset_.

End WithClasses.

End LoadDataset.

(** ** test.py *)

Module TestDriver.

(** *** The command line (lines 22-29)

    [argparse] is a library; what the script contributes is the
    declaration of its single option.  [add_argument] is given neither
    [required=] nor [default=], so argparse's own defaults apply. *)

Module Argparse.

Record argument := {
  option_string : string;
  help : string;
  required : bool;
  default : option string;
}.

Record Namespace := { config_path : option string }.

Definition add_argument (name help : string) : argument :=
  {| option_string := name; help := help; required := false; default := None |}.

(** [parser.parse_args()].  With no arguments at all the outcome depends
    on the declaration alone: a required option is a usage error (exit code
    2), otherwise the namespace holds the default.  How the library reads a
    non-empty command line (abbreviations, [--opt=value], [-h], what may
    follow an option) is the library's: [library] gives its answer. *)
Definition parse_args (library : argument → list string → outcome Namespace)
    (a : argument) (argv : list string) : M Namespace :=
  match argv with
  | [] =>
      if required a then
        log (ArgparseError
               ("the following arguments are required: " ++ option_string a));;
        exit 2
      else mret {| config_path := default a |}
  | _ :: _ => answer (library a argv)
  end.

End Argparse.

Definition parser : Argparse.argument :=
  Argparse.add_argument "--config_path"
    "The path to the configuration file to use in training/testing.".

(** *** Names bound at module level only on some paths *)

Inductive generator := generate_CIFAR10_fn.
Inductive network_class := ResNet50_cls.
Inductive loss_module := CrossEntropyLoss.

Record globals := {
  g_generate_dataset : option generator;
  g_num_classes : option Z;
  g_network : option network_class;
}.

Definition no_globals : globals :=
  {| g_generate_dataset := None; g_num_classes := None; g_network := None |}.

(** Reading a global name: its value, or [NameError] when unbound. *)
Definition global {A} (name : string) (binding : option A) : M A :=
  match binding with
  | Some a => mret a
  | None => raise (NameError name)
  end.

(** *** The adapter class (lines 66-97) *)

Record Model := {
  model : torch_module;
  criterion : loss_module;
  metrics : list (string * metric);
  confusion_matrix : metric;
}.

(** The state of a metric after an [update(output, target)] that the
    library accepted. *)
Definition record_observation (m : metric) (output target : tensor) : metric :=
  {| metric_class := metric_class m; task := task m;
     num_classes := num_classes m; average := average m;
     observations := observations m ++ [(output, target)] |}.

(** The members of a collection after an accepted
    [MetricCollection.update(output, target)]: every member has it. *)
Definition record_in_each (c : list (string * metric)) (output target : tensor)
  : list (string * metric) :=
  map (λ item, (item.1, record_observation item.2 output target)) c.

(** [MetricCollection(dict)] registers the entries in sorted key order. *)
Fixpoint register (name : string) (m : metric) (c : list (string * metric))
  : list (string * metric) :=
  match c with
  | [] => [(name, m)]
  | (name', m') :: rest =>
      if String.leb name name' then (name, m) :: c
      else (name', m') :: register name m rest
  end.

Definition MetricCollection (d : list (string * metric)) : list (string * metric) :=
  foldr (λ item acc, register item.1 item.2 acc) [] d.

(** A metric constructor call, [Cls(task=..., num_classes=..., [average=...])]. *)
Definition new_metric (cls task : string) (n : Z) (avg : option string) : M metric :=
  let m := {| metric_class := cls; task := task; num_classes := n;
              average := avg; observations := [] |} in
  log (NewMetric m);; mret m.

(** *** What the environment answers

    [utils/json_parser.py], [datasets/CIFAR10.py] and
    [networks/resnet50.py] are not part of the sources; argparse, torch,
    lightning and torchmetrics are libraries.  Each call may return, exit
    or raise.  [classes] is a dict: its items are listed in insertion
    order.  [MetricCollection_update] and [Metric_update] say whether the
    library accepts the update (it validates its inputs) on the accumulator
    as it stands. *)
Record externals := {
  argparse : Argparse.argument → list string → outcome Argparse.Namespace;
  parse_json : option string → outcome Config;
  seed_everything : Z → outcome Z;
  cuda_is_available : bool;
  generate_CIFAR10 :
    Z → Q → bool → outcome (loader * loader * list batch * list (string * Z));
  ResNet50 : bool → option string → Z → outcome torch_module;
  torch_load : string → outcome checkpoint;
  load_state_dict : checkpoint → torch_module → outcome torch_module;
  forward : torch_module → tensor → outcome tensor;
  cross_entropy : tensor → tensor → outcome tensor;
  MetricCollection_update : list (string * metric) → tensor → tensor → outcome unit;
  Metric_update : metric → tensor → tensor → outcome unit;
  compute : metric → outcome tensor;
  tensor_str : tensor → string;
}.

Section Script.

Variable ext : externals.

(** **** class Model *)

(** [Model.__init__]; [num_classes] is the module-level name. *)
Definition Model_init (g : globals) (model : torch_module) (criterion : loss_module)
  : M Model :=
  n ← global "num_classes" (g_num_classes g);
  accuracy ← new_metric "Accuracy" "multiclass" n None;
  n ← global "num_classes" (g_num_classes g);
  precision ← new_metric "Precision" "multiclass" n (Some "macro");
  n ← global "num_classes" (g_num_classes g);
  recall ← new_metric "Recall" "multiclass" n (Some "macro");
  n ← global "num_classes" (g_num_classes g);
  auc ← new_metric "AUROC" "multiclass" n None;
  let metrics :=
    MetricCollection
      [("accuracy", accuracy); ("precision", precision);
       ("recall", recall); ("auc", auc)] in
  n ← global "num_classes" (g_num_classes g);
  confusion_matrix ← new_metric "ConfusionMatrix" "multiclass" n None;
  mret {| model := model; criterion := criterion;
          metrics := metrics; confusion_matrix := confusion_matrix |}.

(** [self.criterion(output, target)] *)
Definition apply_criterion (c : loss_module) (output target : tensor)
  : outcome tensor :=
  match c with
  | CrossEntropyLoss => cross_entropy ext output target
  end.

(** [Model.step]: returns (loss, output, target). *)
Definition step (self : Model) (b : batch) : M (tensor * tensor * tensor) :=
  let '(inputs, target) := b in
  output ← call (Forward (model self) inputs) (forward ext (model self) inputs);
  loss ← call (Criterion output target)
              (apply_criterion (criterion self) output target);
  mret (loss, output, target).

(** [self.metrics.update(output, target)]: the library validates and may
    raise; when it returns, every member has received the observation. *)
Definition collection_update (c : list (string * metric)) (output target : tensor)
  : M (list (string * metric)) :=
  call (UpdateMetrics output target) (MetricCollection_update ext c output target);;
  mret (record_in_each c output target).

(** [self.confusion_matrix.update(output, target)], likewise. *)
Definition update (m : metric) (output target : tensor) : M metric :=
  call (UpdateConfusionMatrix output target) (Metric_update ext m output target);;
  mret (record_observation m output target).

(** [Model.test_step]: the updated [self] and the returned value
    ([None]: the method has no [return]). *)
Definition test_step (self : Model) (b : batch) (batch_idx : Z)
  : M (Model * option tensor) :=
  '(loss, output, target) ← step self b;
  metrics' ← collection_update (metrics self) output target;
  let self :=
    {| model := model self; criterion := criterion self;
       metrics := metrics';
       confusion_matrix := confusion_matrix self |} in
  confusion_matrix' ← update (confusion_matrix self) output target;
  let self :=
    {| model := model self; criterion := criterion self;
       metrics := metrics self;
       confusion_matrix := confusion_matrix' |} in
  mret (self, None).

(** [Model.load_from_checkpoint(path, model=..., criterion=...)]:
    the checkpoint is read, the class instantiated with the keyword
    arguments, and the stored weights loaded into it. *)
Definition load_from_checkpoint (g : globals) (path : string)
    (model_ : torch_module) (criterion_ : loss_module) : M Model :=
  ckpt ← call (LoadCheckpoint path) (torch_load ext path);
  self ← Model_init g model_ criterion_;
  loaded ← call (LoadStateDict ckpt (model self))
                (load_state_dict ext ckpt (model self));
  mret {| model := loaded; criterion := criterion self;
          metrics := metrics self; confusion_matrix := confusion_matrix self |}.

(** [trainer.test(model=model, dataloaders=test_loader)]: one [test_step]
    per batch of the loader, in order, with the running index.  The adapter
    is mutated in place: the [self] returned here is the object the script
    reads afterwards.  What the trainer does for itself (its logger's
    directory, its progress output) is not represented. *)
Fixpoint test_loop (self : Model) (batches : list batch) (batch_idx : Z) : M Model :=
  match batches with
  | [] => mret self
  | b :: rest =>
      r ← test_step self b batch_idx;
      test_loop r.1 rest (batch_idx + 1)
  end.

Definition trainer_test (self : Model) (dataloaders : list batch) : M Model :=
  test_loop self dataloaders 0.

(** **** The statements of the script, top to bottom *)

(** lines 29-37 *)
Definition load_configuration (argv : list string) : M Config :=
  args ← Argparse.parse_args (argparse ext) parser argv;
  config ← call (ParseJson (Argparse.config_path args))
                (parse_json ext (Argparse.config_path args));
  call (SeedEverything (seed config)) (seed_everything ext (seed config));;
  (if cuda_is_available ext then
     print "[INFO] CUDA is available! Training on GPU..."
   else
     print "[INFO] CUDA is not available. Training on CPU...");;
  mret config.

Definition unsupported_dataset_message : string :=
  "[ERROR] Currently only CIFAR10 dataset is supported. Exiting...".

(** lines 40-46 *)
Definition dataset_branch (config : Config) (g : globals) : M globals :=
  if str_eq (dataset config) "CIFAR10" then
    log (ImportFrom "datasets.CIFAR10" "generate_CIFAR10");;
    mret {| g_generate_dataset := Some generate_CIFAR10_fn;
            g_num_classes := Some 10;
            g_network := g_network g |}
  else
    print unsupported_dataset_message;;
    exit 1.

Definition apply_generator (f : generator) (bs : Z) (vs : Q) (aug : bool) :=
  match f with
  | generate_CIFAR10_fn => generate_CIFAR10 ext bs vs aug
  end.

(** lines 48-52 *)
Definition build_loaders (config : Config) (g : globals)
  : M (loader * loader * list batch * list (string * Z)) :=
  generate_dataset ← global "generate_dataset" (g_generate_dataset g);
  call (GenerateDataset (batch_size config) (validation_size config) (augment config))
       (apply_generator generate_dataset
          (batch_size config) (validation_size config) (augment config)).

Definition unsupported_network_message : string :=
  "[ERROR] Currently only ResNet50 network is supported. Exiting...".

(** lines 55-58 *)
Definition network_branch (config : Config) (g : globals) : M globals :=
  if str_eq (network config) "ResNet50" then
    log (ImportFrom "networks.resnet50" "ResNet50");;
    mret {| g_generate_dataset := g_generate_dataset g;
            g_num_classes := g_num_classes g;
            g_network := Some ResNet50_cls |}
  else
    print unsupported_network_message;;
    mret g.

Definition instantiate (c : network_class) (top : bool) (w : option string) (n : Z)
  : M torch_module :=
  match c with
  | ResNet50_cls => call (NewResNet50 top w n) (ResNet50 ext top w n)
  end.

(** lines 60-62: the callee is evaluated before its arguments. *)
Definition build_model (config : Config) (g : globals) : M torch_module :=
  network ← global "network" (g_network g);
  num_classes ← global "num_classes" (g_num_classes g);
  instantiate network (include_top config) (weights config) num_classes.

(** lines 100-102; [nn.CrossEntropyLoss()] only builds the loss module. *)
Definition load_weights (config : Config) (g : globals) (model_ : torch_module)
  : M Model :=
  let criterion := CrossEntropyLoss in
  let weights_path := weights_dir config ++ "/" ++ weights_path config ++ ".ckpt" in
  load_from_checkpoint g weights_path model_ criterion.

(** lines 107-108 *)
Fixpoint report_metrics (items : list (string * metric)) : M unit :=
  match items with
  | [] => mret ()
  | (metric_name, metric_instance) :: rest =>
      value ← call (ComputeMetric metric_instance) (compute ext metric_instance);
      print (metric_name ++ ": " ++ tensor_str ext value);;
      report_metrics rest
  end.

Definition blank_figure (size : Q * Q) : figure :=
  {| figsize := size; fig_heatmap := None; x_labelrotation := None;
     xlabel := None; ylabel := None; title := None |}.

(** [plt.savefig(fname)] writes the current figure, a fresh default one
    when there is none, replacing any file of that name. *)
Definition savefig (fname : string) : M unit := λ w,
  (log (SaveFig fname);;
   write_file fname (default (blank_figure (32 # 5, 24 # 5)) (current_figure w))) w.

(** [plt.close(fig)] *)
Definition close : M unit := log CloseFig;; set_figure None.

(** lines 110-128: [plt.subplots(figsize=(8, 6))], [list(classes.keys())],
    [sns.heatmap(...)] on the axes, [ax.tick_params(axis="x",
    labelrotation=45)], [ax.set_xlabel], [ax.set_ylabel], [ax.set_title],
    [plt.savefig], [plt.close(fig)]. *)
Definition render_confusion_matrix (self : Model) (classes : list (string * Z))
  : M unit :=
  set_figure (Some (blank_figure (8 # 1, 6 # 1)));;
  let class_names := map fst classes in
  data ← call (ComputeMetric (confusion_matrix self)) (compute ext (confusion_matrix self));
  on_axes (λ f,
    {| figsize := figsize f;
       fig_heatmap :=
         Some {| hm_data := data; hm_annot := true; hm_fmt := "d";
                 hm_cmap := "Blues";
                 hm_xticklabels := class_names;
                 hm_yticklabels := class_names |};
       x_labelrotation := x_labelrotation f;
       xlabel := xlabel f; ylabel := ylabel f; title := title f |});;
  on_axes (λ f,
    {| figsize := figsize f; fig_heatmap := fig_heatmap f;
       x_labelrotation := Some 45;
       xlabel := xlabel f; ylabel := ylabel f; title := title f |});;
  on_axes (λ f,
    {| figsize := figsize f; fig_heatmap := fig_heatmap f;
       x_labelrotation := x_labelrotation f;
       xlabel := Some "Predicted Labels"; ylabel := ylabel f; title := title f |});;
  on_axes (λ f,
    {| figsize := figsize f; fig_heatmap := fig_heatmap f;
       x_labelrotation := x_labelrotation f;
       xlabel := xlabel f; ylabel := Some "True Labels"; title := title f |});;
  on_axes (λ f,
    {| figsize := figsize f; fig_heatmap := fig_heatmap f;
       x_labelrotation := x_labelrotation f;
       xlabel := xlabel f; ylabel := ylabel f; title := Some "Confusion Matrix" |});;
  savefig "confusion_matrix.png";;
  close.

(** lines 100-128; [L.Trainer()] only builds the trainer. *)
Definition evaluate (config : Config) (g : globals) (model_ : torch_module)
    (test_loader : list batch) (classes : list (string * Z)) : M unit :=
  self ← load_weights config g model_;
  self ← trainer_test self test_loader;
  report_metrics (metrics self);;
  render_confusion_matrix self classes.

(** The whole script. *)
Definition main (argv : list string) : M unit :=
  config ← load_configuration argv;
  g ← dataset_branch config no_globals;
  '(train_loader, validation_loader, test_loader, classes) ← build_loaders config g;
  g ← network_branch config g;
  model_ ← build_model config g;
  evaluate config g model_ test_loader classes.

End Script.

End TestDriver.

(** ** Classifying events *)

Definition dataset_classes : list dataset_class :=
  [cls_CIFAR10; cls_CIFAR100; cls_CIFAR10_128].

(** The calls by which a run of [load_dataset] that selects a class shows
    in a trace: the import of a dataset class and its construction. *)
Definition dataset_class_event (ev : event) : bool :=
  match ev with
  | NewDataset _ _ => true
  | ImportFrom _ name => bool_decide (name ∈ class_name <$> dataset_classes)
  | _ => false
  end.

(** A metric constructor call, if [ev] is one, passes [num_classes = n]. *)
Definition metric_of_size (n : Z) (ev : event) : bool :=
  match ev with
  | NewMetric m => bool_decide (num_classes m = n)
  | _ => true
  end.

Definition driver_event (ev : event) : bool :=
  negb (dataset_class_event ev) && metric_of_size 10 ev.

(** The metrics constructed along a trace, in order. *)
Definition constructed_metrics (evs : list event) : list metric :=
  omap (λ ev, match ev with NewMetric m => Some m | _ => None end) evs.

(** The figure lines 110-124 of [test.py] draw for a computed confusion
    matrix [data] and tick labels [class_names]. *)
Definition heatmap_figure (data : tensor) (class_names : list string) : figure :=
  {| figsize := (8 # 1, 6 # 1);
     fig_heatmap :=
       Some {| hm_data := data; hm_annot := true; hm_fmt := "d"; hm_cmap := "Blues";
               hm_xticklabels := class_names; hm_yticklabels := class_names |};
     x_labelrotation := Some 45;
     xlabel := Some "Predicted Labels";
     ylabel := Some "True Labels";
     title := Some "Confusion Matrix" |}.

(** [new] is [old] after exactly one more [update(output, target)]: same
    constructor arguments, one more observation at the end. *)
Definition one_more (output target : tensor) (old new : metric) : Prop :=
  metric_class new = metric_class old ∧
  task new = task old ∧
  num_classes new = num_classes old ∧
  average new = average old ∧
  observations new = (observations old ++ [(output, target)])%list.

(** A multiclass metric as its constructor leaves it: nothing observed. *)
Definition fresh_metric (cls : string) (n : Z) (avg : option string) : metric :=
  {| metric_class := cls; task := "multiclass"; num_classes := n;
     average := avg; observations := [] |}.

(** *** The first lines of the script, as programs of their own *)

(** Lines 22-52: the configuration, the module-level names bound so far
    and what [generate_dataset] returned. *)
Definition to_line_52 (ext : TestDriver.externals) (argv : list string)
  : M (Config * TestDriver.globals
       * (loader * loader * list batch * list (string * Z))) :=
  config ← TestDriver.load_configuration ext argv;
  g ← TestDriver.dataset_branch config TestDriver.no_globals;
  r ← TestDriver.build_loaders ext config g;
  mret (config, g, r).

(** Lines 22-62: the same, after the network branch, with the network. *)
Definition to_line_62 (ext : TestDriver.externals) (argv : list string)
  : M (Config * TestDriver.globals
       * (loader * loader * list batch * list (string * Z)) * torch_module) :=
  '(config, g, r) ← to_line_52 ext argv;
  g ← TestDriver.network_branch config g;
  net ← TestDriver.build_model ext config g;
  mret (config, g, r, net).

(** ** A small logic of traces

    [emits m Q]: whatever the world, [m] only appends events to the trace,
    each of them a [driver_event], and a returned value satisfies [Q]. *)
Definition emits {A} (m : M A) (Q : A → Prop) : Prop :=
  ∀ w, ∃ evs,
    (m w).2 = logged w evs ∧
    Forall (λ ev, driver_event ev = true) evs ∧
    ∀ a, (m w).1 = Return a → Q a.

(** [traces m]: the same about the trace alone, for code that also draws. *)
Definition traces {A} (m : M A) : Prop :=
  ∀ w, ∃ evs : list event,
    trace (m w).2 = (trace w ++ evs)%list ∧
    Forall (λ ev, driver_event ev = true) evs.

(** ** A whole test pass, in closed form *)






(** The calls and the lines of [report_metrics] over [items] whose
    [compute()] gave [values]. *)
Definition report_line (ext : TestDriver.externals)
    (item : string * metric) (value : tensor) : string :=
  item.1 ++ ": " ++ TestDriver.tensor_str ext value.

Definition report_events (ext : TestDriver.externals)
    (items : list (string * metric)) (values : list tensor) : list event :=
  concat (zip_with (λ item value,
                      [ComputeMetric item.2; Stdout (report_line ext item value)])
                   items values).

(** ** Whole runs *)




(** ** Concrete configurations and environments

    Used to run the embedding on definite inputs. *)

Module Demo.

Import TestDriver.

Definition config (d n : string) : Config :=
  {| dataset := d; network := n; batch_size := 64; validation_size := 1 # 10;
     augment := true; seed := 42; include_top := true;
     weights := Some "IMAGENET1K_V2";
     weights_dir := "weights"; weights_path := "resnet50" |}.

(** Every dataset class constructs without failing. *)
Definition Dataset_new (c : dataset_class) (bs : Z) (vs : Q) (aug : bool)
  : outcome dataset_object :=
  Return (DatasetObject (N.of_nat (String.length (class_name c)))).

(** The answer of [generate_CIFAR10]: two test batches, three classes. *)
Definition test_batches : list batch :=
  [(Tensor 10, Tensor 11); (Tensor 12, Tensor 13)].

Definition classes : list (string * Z) :=
  [("airplane", 0); ("automobile", 1); ("bird", 2)].

Definition missing_path_error : exn :=
  Exn "TypeError" "expected str, bytes or os.PathLike object, not NoneType".

(** An environment in which the configuration file holds [cfg] and no call
    fails, except that [parse_json] cannot open [None] and that argparse
    takes nothing but the option followed by a path. *)
Definition env (cfg : Config) : externals :=
  {| argparse := λ _ argv,
       match argv with
       | [flag; path] =>
           if str_eq flag "--config_path" then
             Return {| Argparse.config_path := Some path |}
           else Exit 2
       | _ => Exit 2
       end;
     seed_everything := λ seed, Return seed;
     MetricCollection_update := λ _ _ _, Return ();
     Metric_update := λ _ _ _, Return ();
     parse_json := λ path,
       match path with
       | Some _ => Return cfg
       | None => Raise missing_path_error
       end;
     cuda_is_available := false;
     generate_CIFAR10 := λ _ _ _,
       Return (Loader 0, Loader 1, test_batches, classes);
     ResNet50 := λ _ _ _, Return (TorchModule 0);
     torch_load := λ _, Return (Checkpoint 0);
     load_state_dict := λ _ _, Return (TorchModule 1);
     forward := λ _ x, match x with Tensor i => Return (Tensor (i + 100)) end;
     cross_entropy := λ _ _, Return (Tensor 7);
     compute := λ m, Return (Tensor (N.of_nat (length (observations m))));
     tensor_str := λ _, "tensor(1.)" |}.

Definition missing_checkpoint : exn :=
  Exn "FileNotFoundError" "weights/resnet50.ckpt".

(** As [env], but there is no checkpoint file. *)
Definition env_without_checkpoint (cfg : Config) : externals :=
  {| argparse := argparse (env cfg);
     seed_everything := seed_everything (env cfg);
     MetricCollection_update := MetricCollection_update (env cfg);
     Metric_update := Metric_update (env cfg);
     parse_json := parse_json (env cfg);
     cuda_is_available := cuda_is_available (env cfg);
     generate_CIFAR10 := generate_CIFAR10 (env cfg);
     ResNet50 := ResNet50 (env cfg);
     torch_load := λ _, Raise missing_checkpoint;
     load_state_dict := load_state_dict (env cfg);
     forward := forward (env cfg);
     cross_entropy := cross_entropy (env cfg);
     compute := compute (env cfg);
     tensor_str := tensor_str (env cfg) |}.

(** The process starts with nothing printed and no figure; in
    [with_stale_image] an older image is already on disk. *)
Definition stale_figure : figure :=
  {| figsize := (1 # 1, 1 # 1); fig_heatmap := None; x_labelrotation := None;
     xlabel := None; ylabel := None; title := Some "old" |}.

Definition fresh : world := World [] None ∅.
Definition with_stale_image : world :=
  World [] None {[ "confusion_matrix.png" := stale_figure ]}.

Definition argv : list string := ["--config_path"; "config.json"].

Definition namespace : Argparse.Namespace :=
  {| Argparse.config_path := Some "config.json" |}.

(** Where a run of [env] on [argv] from [fresh] stands after line 37 and
    after line 52. *)
Definition after_line_37 : world :=
  World [ParseJson (Some "config.json"); SeedEverything 42;
         Stdout "[INFO] CUDA is not available. Training on CPU..."]
        None ∅.

Definition after_line_52 : world :=
  World [ParseJson (Some "config.json"); SeedEverything 42;
         Stdout "[INFO] CUDA is not available. Training on CPU...";
         ImportFrom "datasets.CIFAR10" "generate_CIFAR10";
         GenerateDataset 64 (1 # 10) true]
        None ∅.

Definition globals_at_line_52 : globals :=
  {| g_generate_dataset := Some generate_CIFAR10_fn;
     g_num_classes := Some 10;
     g_network := None |}.


(** An adapter that has seen one batch. *)
Definition adapter : Model :=
  {| model := TorchModule 1;
     criterion := CrossEntropyLoss;
     metrics :=
       [("accuracy",
         record_observation (fresh_metric "Accuracy" 10 None) (Tensor 110) (Tensor 11));
        ("auc",
         record_observation (fresh_metric "AUROC" 10 None) (Tensor 110) (Tensor 11))];
     confusion_matrix :=
       record_observation (fresh_metric "ConfusionMatrix" 10 None)
                          (Tensor 110) (Tensor 11) |}.

End Demo.

(** ** Running the monad *)

Section Running.

Context {A B : Type}.

Lemma run_bind (m : M A) (k : A → M B) (w : world) :
  (m ≫= k) w =
  match m w with
  | (Return a, w') => k a w'
  | (Exit c, w') => (Exit c, w')
  | (Raise e, w') => (Raise e, w')
  end.
Proof. reflexivity. Qed.

Lemma run_bind_Return (m : M A) (k : A → M B) w a w' :
  m w = (Return a, w') → (m ≫= k) w = k a w'.
Proof. intros H. rewrite run_bind, H. reflexivity. Qed.

(** A run that returns went through both halves of a bind. *)
Lemma bind_Return_inv (m : M A) (k : A → M B) w b w' :
  (m ≫= k) w = (Return b, w') →
  ∃ a w1, m w = (Return a, w1) ∧ k a w1 = (Return b, w').
Proof.
  rewrite run_bind. destruct (m w) as [[a|c|e] w1]; intros H;
    [eauto | discriminate | discriminate].
Qed.

End Running.

Lemma logged_nil w : logged w [] = w.
Proof. destruct w. unfold logged. simpl. by rewrite app_nil_r. Qed.

Lemma logged_logged w evs evs' : logged (logged w evs) evs' = logged w (evs ++ evs').
Proof. unfold logged. simpl. by rewrite app_assoc. Qed.

Lemma run_log ev w : log ev w = (Return (), logged w [ev]).
Proof. reflexivity. Qed.

Lemma run_call {A} ev (o : outcome A) w : call ev o w = (o, logged w [ev]).
Proof. unfold call. rewrite run_bind, run_log. by destruct o. Qed.

(** ** Facts about datasets/load_dataset.py *)

Section LoadDatasetFacts.

Import LoadDataset.

Variable Dataset_new : dataset_class → Z → Q → bool → outcome dataset_object.

Lemma not_member_neq (d : string) :
  d ∉ Datasets.members →
  str_eq d Datasets.CIFAR10 = false ∧
  str_eq d Datasets.CIFAR100 = false ∧
  str_eq d Datasets.CIFAR10_128 = false.
Proof.
  intros H. unfold str_eq. repeat split; apply String.eqb_neq; intros ->;
    apply H; unfold Datasets.members; set_solver.
Qed.

Lemma member_class (d : string) :
  d ∈ Datasets.members → ∃ c, class_name c = d.
Proof.
  unfold Datasets.members. intros H.
  apply elem_of_cons in H as [->|H]; [by exists cls_CIFAR10|].
  apply elem_of_cons in H as [->|H]; [by exists cls_CIFAR100|].
  apply elem_of_cons in H as [->|H]; [by exists cls_CIFAR10_128|].
  by apply elem_of_nil in H.
Qed.

Lemma load_dataset_class (config : Config) (c : dataset_class) (w : world) :
  class_name c = dataset config →
  load_dataset Dataset_new config w =
  (Dataset_new c (batch_size config) (validation_size config) (augment config),
   logged w [ImportFrom ("datasets." ++ class_name c) (class_name c);
             NewDataset c (batch_size config, validation_size config, augment config)]).
Proof.
  intros Hc. unfold load_dataset. rewrite <- Hc.
  destruct c; simpl;
    rewrite run_bind; unfold import_class;
    rewrite run_bind, run_log; simpl;
    rewrite run_bind, run_call, logged_logged; simpl;
    by destruct (Dataset_new _ _ _ _).
Qed.

(** C2. For every [config.dataset] outside {CIFAR10, CIFAR100,
    CIFAR10_128}, [load_dataset] prints one line, which contains
    "Invalid dataset", and the process leaves with exit code exactly 1:
    the outcome is an exit, not a raised exception, nothing else is
    recorded, so no dataset class is imported or constructed. *)
Theorem load_dataset_invalid_exits_1 (config : Config) (w : world) :
  dataset config ∉ Datasets.members →
  load_dataset Dataset_new config w = (Exit 1, logged w [Stdout invalid_dataset_message])
  ∧ contains "Invalid dataset" invalid_dataset_message = true
  ∧ (∀ e, (load_dataset Dataset_new config w).1 ≠ Raise e)
  ∧ (∀ c args, NewDataset c args ∈ trace (load_dataset Dataset_new config w).2 →
               NewDataset c args ∈ trace w).
Proof.
  intros H. apply not_member_neq in H as (H1 & H2 & H3).
  assert (Hrun : load_dataset Dataset_new config w
                 = (Exit 1, logged w [Stdout invalid_dataset_message])).
  { unfold load_dataset. rewrite H1, H2, H3. reflexivity. }
  rewrite Hrun. split_and!; [done | done | done |].
  intros c args. simpl. rewrite elem_of_app. intros [?|Hin]; [done|].
  apply list_elem_of_singleton in Hin. discriminate.
Qed.

(** C4. For every [config.dataset] in {CIFAR10, CIFAR100, CIFAR10_128},
    [load_dataset] imports the dataset class of the same name and calls it
    with exactly the positional arguments [(config.batch_size,
    config.validation_size, config.augment)]; what that call gives is what
    [load_dataset] gives, so the constructed object is returned. *)
Theorem load_dataset_selects_named_class (config : Config) (w : world) :
  dataset config ∈ Datasets.members →
  ∃ c : dataset_class,
    class_name c = dataset config ∧
    load_dataset Dataset_new config w =
    (Dataset_new c (batch_size config) (validation_size config) (augment config),
     logged w [ImportFrom ("datasets." ++ class_name c) (class_name c);
               NewDataset c (batch_size config, validation_size config,
                             augment config)]).
Proof.
  intros H. destruct (member_class _ H) as [c Hc].
  exists c. split; [done|]. by apply load_dataset_class.
Qed.

End LoadDatasetFacts.

Section Emits.

Context {A B : Type}.

Lemma emits_ret (a : A) (Q : A → Prop) : Q a → emits (mret a) Q.
Proof.
  intros HQ w. exists []. simpl. rewrite logged_nil.
  split_and!; [done | constructor | by intros ? [= <-]].
Qed.

Lemma emits_bind (m : M A) (k : A → M B) (Q : A → Prop) (R : B → Prop) :
  emits m Q → (∀ a, Q a → emits (k a) R) → emits (m ≫= k) R.
Proof.
  intros Hm Hk w. destruct (Hm w) as (evs & Hw & Hevs & HQ).
  rewrite run_bind. destruct (m w) as [[a|c|e] w1]; simpl in *; subst w1.
  - destruct (Hk a (HQ a eq_refl) (logged w evs)) as (evs' & Hw' & Hevs' & HR).
    exists (evs ++ evs')%list. rewrite Hw', logged_logged.
    split_and!; [done | by apply Forall_app | done].
  - exists evs. split_and!; [done | done | discriminate].
  - exists evs. split_and!; [done | done | discriminate].
Qed.

Lemma emits_weaken (m : M A) (Q Q' : A → Prop) :
  emits m Q → (∀ a, Q a → Q' a) → emits m Q'.
Proof.
  intros Hm HQ w. destruct (Hm w) as (evs & ? & ? & ?).
  exists evs. split_and!; auto.
Qed.

Lemma emits_exit (c : Z) (Q : A → Prop) : emits (exit c) Q.
Proof.
  intros w. exists []. simpl. rewrite logged_nil.
  split_and!; [done | constructor | discriminate].
Qed.

Lemma emits_raise (e : exn) (Q : A → Prop) : emits (raise e) Q.
Proof.
  intros w. exists []. simpl. rewrite logged_nil.
  split_and!; [done | constructor | discriminate].
Qed.

Lemma emits_call (ev : event) (o : outcome A) (Q : A → Prop) :
  driver_event ev = true → (∀ a, o = Return a → Q a) → emits (call ev o) Q.
Proof.
  intros Hev HQ w. exists [ev]. rewrite run_call. simpl.
  split_and!; [done | by repeat constructor | done].
Qed.

End Emits.

Lemma traces_bind {A B} (m : M A) (k : A → M B) (Q : A → Prop) :
  emits m Q → (∀ a, Q a → traces (k a)) → traces (m ≫= k).
Proof.
  intros Hm Hk w. destruct (Hm w) as (evs & Hw & Hevs & HQ).
  rewrite run_bind. destruct (m w) as [[a|c|e] w1]; simpl in *; subst w1.
  - destruct (Hk a (HQ a eq_refl) (logged w evs)) as (evs' & Hw' & Hevs').
    exists (evs ++ evs')%list. rewrite Hw'. simpl.
    split; [by rewrite app_assoc | by apply Forall_app].
  - by exists evs.
  - by exists evs.
Qed.

(** What a returning run of an [emits] computation looks like. *)
Lemma emits_Return {A} (m : M A) (Q : A → Prop) (w : world) (a : A) (w1 : world) :
  emits m Q → m w = (Return a, w1) →
  ∃ evs, w1 = logged w evs ∧ Forall (λ ev, driver_event ev = true) evs ∧ Q a.
Proof.
  intros Hm Hrun. destruct (Hm w) as (evs & Hw & Hevs & HQ).
  rewrite Hrun in Hw, HQ. simpl in *. exists evs. split_and!; [done | done | by apply HQ].
Qed.

Lemma emits_log (ev : event) (Q : unit → Prop) :
  driver_event ev = true → Q () → emits (log ev) Q.
Proof.
  intros Hev HQ w. exists [ev]. rewrite run_log. simpl.
  split_and!; [done | by repeat constructor | by intros []].
Qed.

Lemma emits_print (line : string) (Q : unit → Prop) : Q () → emits (print line) Q.
Proof. intros HQ. by apply emits_log. Qed.

Lemma emits_global {A} (name : string) (binding : option A) (Q : A → Prop) :
  (∀ a, binding = Some a → Q a) → emits (TestDriver.global name binding) Q.
Proof.
  intros HQ. destruct binding as [a|]; simpl.
  - apply emits_ret. by apply HQ.
  - apply emits_raise.
Qed.

(** ** Facts about test.py *)

Section DriverFacts.

Import TestDriver.

Variable ext : externals.

(** *** The events of each part of the script *)

Lemma run_parse_args_nil (w : world) :
  Argparse.parse_args (argparse ext) parser [] w
  = (Return {| Argparse.config_path := None |}, w).
Proof. reflexivity. Qed.

Lemma emits_parse_args (argv : list string) :
  emits (Argparse.parse_args (argparse ext) parser argv)
        (λ ns, ∀ w, Argparse.parse_args (argparse ext) parser argv w = (Return ns, w)).
Proof.
  intros w. exists []. rewrite logged_nil. destruct argv as [|x rest].
  - simpl. split_and!; [done | constructor |]. by intros ns [= <-].
  - simpl. unfold answer. split_and!; [done | constructor |].
    intros ns Hns w'. simpl in *. by rewrite Hns.
Qed.

Lemma emits_load_configuration (argv : list string) :
  emits (load_configuration ext argv)
        (λ config, ∃ ns,
           (∀ w, Argparse.parse_args (argparse ext) parser argv w = (Return ns, w)) ∧
           parse_json ext (Argparse.config_path ns) = Return config).
Proof.
  unfold load_configuration.
  eapply emits_bind; [apply emits_parse_args|]. intros ns Hns. simpl in Hns.
  apply (emits_bind _ _ (λ config,
           parse_json ext (Argparse.config_path ns) = Return config)).
  { by apply emits_call. }
  intros config Hconfig.
  apply (emits_bind _ _ (λ _, True)); [by apply emits_call|]. intros _ _.
  apply (emits_bind _ _ (λ _, True)).
  { destruct (cuda_is_available ext); by apply emits_print. }
  intros _ _. apply emits_ret. eauto.
Qed.

Lemma emits_dataset_branch (config : Config) (g : globals) :
  emits (dataset_branch config g)
        (λ g', dataset config = "CIFAR10" ∧
               g' = {| g_generate_dataset := Some generate_CIFAR10_fn;
                       g_num_classes := Some 10;
                       g_network := g_network g |}).
Proof.
  unfold dataset_branch, str_eq.
  destruct (String.eqb_spec (dataset config) "CIFAR10") as [Heq|Hne].
  - apply (emits_bind _ _ (λ _, True)); [by apply emits_log|]. intros _ _.
    by apply emits_ret.
  - apply (emits_bind _ _ (λ _, True)); [by apply emits_print|]. intros _ _.
    apply emits_exit.
Qed.

Lemma emits_build_loaders (config : Config) (g : globals) :
  emits (build_loaders ext config g)
        (λ r, generate_CIFAR10 ext (batch_size config) (validation_size config)
                               (augment config) = Return r).
Proof.
  unfold build_loaders.
  apply (emits_bind _ _ (λ _, True)); [by apply emits_global|].
  intros [] _. by apply emits_call.
Qed.

Lemma emits_network_branch (config : Config) (g : globals) :
  emits (network_branch config g)
        (λ g', g_num_classes g' = g_num_classes g).
Proof.
  unfold network_branch. destruct (str_eq (network config) "ResNet50").
  - apply (emits_bind _ _ (λ _, True)); [by apply emits_log|]. intros _ _.
    by apply emits_ret.
  - apply (emits_bind _ _ (λ _, True)); [by apply emits_print|]. intros _ _.
    by apply emits_ret.
Qed.

Lemma emits_build_model (config : Config) (g : globals) :
  emits (build_model ext config g)
        (λ net, ∃ n, g_num_classes g = Some n ∧
                     ResNet50 ext (include_top config) (weights config) n = Return net).
Proof.
  unfold build_model.
  apply (emits_bind _ _ (λ _, True)); [by apply emits_global|]. intros [] _.
  apply (emits_bind _ _ (λ n, g_num_classes g = Some n)); [by apply emits_global|].
  intros n Hn. apply emits_call; [done|]. eauto.
Qed.

Lemma emits_new_metric (cls task_ : string) (avg : option string) (Q : metric → Prop) :
  Q {| metric_class := cls; task := task_; num_classes := 10;
       average := avg; observations := [] |} →
  emits (new_metric cls task_ 10 avg) Q.
Proof.
  intros HQ. unfold new_metric.
  apply (emits_bind _ _ (λ _, True)); [by apply emits_log|]. intros _ _.
  by apply emits_ret.
Qed.

Lemma emits_Model_init (g : globals) (net : torch_module) (c : loss_module) :
  g_num_classes g = Some 10 →
  emits (Model_init g net c) (λ self, observations (confusion_matrix self) = []).
Proof.
  intros Hg. unfold Model_init. rewrite Hg. simpl.
  do 4 (apply (emits_bind _ _ (λ n, n = 10)); [by apply emits_ret|]; intros n ->;
        apply (emits_bind _ _ (λ _, True)); [by apply emits_new_metric|]; intros ? _).
  apply (emits_bind _ _ (λ n, n = 10)); [by apply emits_ret|]; intros n ->.
  apply (emits_bind _ _ (λ m, observations m = [])); [by apply emits_new_metric|].
  intros m Hm. by apply emits_ret.
Qed.

Lemma emits_load_weights (config : Config) (g : globals) (net : torch_module) :
  g_num_classes g = Some 10 →
  emits (load_weights ext config g net)
        (λ self, observations (confusion_matrix self) = []).
Proof.
  intros Hg. unfold load_weights, load_from_checkpoint.
  apply (emits_bind _ _ (λ _, True)); [by apply emits_call|]. intros ckpt _.
  eapply emits_bind; [by apply emits_Model_init|]. intros self Hself.
  apply (emits_bind _ _ (λ _, True)); [by apply emits_call|]. intros loaded _.
  by apply emits_ret.
Qed.

Lemma emits_test_step (self : Model) (b : batch) (batch_idx : Z) :
  emits (test_step ext self b batch_idx)
        (λ r, length (observations (confusion_matrix r.1))
              = S (length (observations (confusion_matrix self)))).
Proof.
  unfold test_step, step, collection_update, update. destruct b as [inputs target].
  apply (emits_bind _ _ (λ _, True)).
  { apply (emits_bind _ _ (λ _, True)); [by apply emits_call|]. intros output _.
    apply (emits_bind _ _ (λ _, True)); [by apply emits_call|]. intros loss _.
    by apply emits_ret. }
  intros [[loss output] tgt] _.
  apply (emits_bind _ _ (λ _, True)).
  { apply (emits_bind _ _ (λ _, True)); [by apply emits_call|]. intros _ _.
    by apply emits_ret. }
  intros metrics' _.
  apply (emits_bind _ _ (λ cm, length (observations cm)
                               = S (length (observations (confusion_matrix self))))).
  { apply (emits_bind _ _ (λ _, True)); [by apply emits_call|]. intros _ _.
    apply emits_ret. simpl. rewrite length_app. simpl. lia. }
  intros cm Hcm. by apply emits_ret.
Qed.

Lemma emits_test_loop (batches : list batch) :
  ∀ (self : Model) (batch_idx : Z),
    emits (test_loop ext self batches batch_idx)
          (λ self', length (observations (confusion_matrix self'))
                    = (length (observations (confusion_matrix self))
                       + length batches)%nat).
Proof.
  induction batches as [|b rest IH]; intros self batch_idx; simpl.
  - apply emits_ret. lia.
  - eapply emits_bind; [apply emits_test_step|].
    intros r Hr. simpl in Hr. eapply emits_weaken; [apply IH|].
    intros self' Hself'. simpl in Hself'. lia.
Qed.

Lemma emits_report_metrics (items : list (string * metric)) :
  emits (report_metrics ext items) (λ _, True).
Proof.
  induction items as [|[name m] rest IH]; simpl.
  - by apply emits_ret.
  - apply (emits_bind _ _ (λ _, True)); [by apply emits_call|]. intros value _.
    apply (emits_bind _ _ (λ _, True)); [by apply emits_print|]. intros _ _.
    apply IH.
Qed.

(** *** Running each part *)

Lemma run_dataset_branch_CIFAR10 (config : Config) (g : globals) (w : world) :
  dataset config = "CIFAR10" →
  dataset_branch config g w =
  (Return {| g_generate_dataset := Some generate_CIFAR10_fn;
             g_num_classes := Some 10;
             g_network := g_network g |},
   logged w [ImportFrom "datasets.CIFAR10" "generate_CIFAR10"]).
Proof. intros H. unfold dataset_branch. rewrite H. simpl. by rewrite run_bind, run_log. Qed.

Lemma run_dataset_branch_other (config : Config) (g : globals) (w : world) :
  dataset config ≠ "CIFAR10" →
  dataset_branch config g w = (Exit 1, logged w [Stdout unsupported_dataset_message]).
Proof.
  intros H. unfold dataset_branch, str_eq.
  by destruct (String.eqb_spec (dataset config) "CIFAR10").
Qed.

Lemma run_build_loaders (config : Config) (g : globals) (w : world) :
  g_generate_dataset g = Some generate_CIFAR10_fn →
  build_loaders ext config g w =
  (generate_CIFAR10 ext (batch_size config) (validation_size config) (augment config),
   logged w [GenerateDataset (batch_size config) (validation_size config)
                             (augment config)]).
Proof.
  intros H. unfold build_loaders. rewrite H. simpl. apply run_call.
Qed.

Lemma run_network_branch_ResNet50 (config : Config) (g : globals) (w : world) :
  network config = "ResNet50" →
  network_branch config g w =
  (Return {| g_generate_dataset := g_generate_dataset g;
             g_num_classes := g_num_classes g;
             g_network := Some ResNet50_cls |},
   logged w [ImportFrom "networks.resnet50" "ResNet50"]).
Proof. intros H. unfold network_branch. rewrite H. simpl. by rewrite run_bind, run_log. Qed.

Lemma run_network_branch_other (config : Config) (g : globals) (w : world) :
  network config ≠ "ResNet50" →
  network_branch config g w = (Return g, logged w [Stdout unsupported_network_message]).
Proof.
  intros H. unfold network_branch, str_eq.
  by destruct (String.eqb_spec (network config) "ResNet50").
Qed.

Lemma run_build_model_unbound (config : Config) (g : globals) (w : world) :
  g_network g = None →
  build_model ext config g w = (Raise (NameError "network"), w).
Proof. intros H. unfold build_model. rewrite H. reflexivity. Qed.

Lemma run_build_model (config : Config) (g : globals) (n : Z) (w : world) :
  g_network g = Some ResNet50_cls →
  g_num_classes g = Some n →
  build_model ext config g w =
  (ResNet50 ext (include_top config) (weights config) n,
   logged w [NewResNet50 (include_top config) (weights config) n]).
Proof.
  intros Hnet Hn. unfold build_model. rewrite Hnet, Hn. simpl. apply run_call.
Qed.

(** What the first 52 lines did when they returned. *)
Lemma to_line_52_inv (argv : list string) (config : Config) (g : globals)
    (r : loader * loader * list batch * list (string * Z)) (w w1 : world) :
  to_line_52 ext argv w = (Return (config, g, r), w1) →
  ∃ w0,
    load_configuration ext argv w = (Return config, w0) ∧
    dataset config = "CIFAR10" ∧
    g = {| g_generate_dataset := Some generate_CIFAR10_fn;
           g_num_classes := Some 10;
           g_network := None |} ∧
    generate_CIFAR10 ext (batch_size config) (validation_size config) (augment config)
      = Return r ∧
    w1 = logged w0 [ImportFrom "datasets.CIFAR10" "generate_CIFAR10";
                    GenerateDataset (batch_size config) (validation_size config)
                                    (augment config)].
Proof.
  intros Hrun. unfold to_line_52 in Hrun.
  apply bind_Return_inv in Hrun as (config0 & w0 & H1 & Hrun).
  apply bind_Return_inv in Hrun as (g0 & wa & H2 & Hrun).
  apply bind_Return_inv in Hrun as (r0 & wb & H3 & Hrun).
  injection Hrun as -> -> -> ->.
  destruct (emits_Return _ _ _ _ _ (emits_dataset_branch config no_globals) H2)
    as (_ & _ & _ & Hds & ->).
  rewrite run_dataset_branch_CIFAR10 in H2 by done. injection H2 as <-.
  rewrite run_build_loaders in H3 by done. injection H3 as Hgen <-.
  exists w0. rewrite logged_logged. by split_and!.
Qed.

(** The script is its first 52 lines followed by the rest. *)
Lemma run_main_from_52 (argv : list string) (config : Config) (g : globals)
    (train val : loader) (test : list batch) (classes : list (string * Z))
    (w w1 : world) :
  to_line_52 ext argv w = (Return (config, g, (train, val, test, classes)), w1) →
  main ext argv w =
  (g' ← network_branch config g;
   net ← build_model ext config g';
   evaluate ext config g' net test classes) w1.
Proof.
  intros Hrun. unfold to_line_52 in Hrun.
  apply bind_Return_inv in Hrun as (config0 & w0 & H1 & Hrun).
  apply bind_Return_inv in Hrun as (g0 & wa & H2 & Hrun).
  apply bind_Return_inv in Hrun as (r0 & wb & H3 & Hrun).
  injection Hrun as -> -> -> ->.
  unfold main.
  rewrite (run_bind_Return _ _ _ _ _ H1), (run_bind_Return _ _ _ _ _ H2).
  by rewrite (run_bind_Return _ _ _ _ _ H3).
Qed.

(** The script is its first 62 lines followed by lines 100-128. *)
Lemma run_main_from_62 (argv : list string) (config : Config) (g : globals)
    (train val : loader) (test : list batch) (classes : list (string * Z))
    (net : torch_module) (w w1 : world) :
  to_line_62 ext argv w
    = (Return (config, g, (train, val, test, classes), net), w1) →
  main ext argv w = evaluate ext config g net test classes w1.
Proof.
  intros Hrun. unfold to_line_62 in Hrun.
  apply bind_Return_inv in Hrun as ([[config0 g0] [[[tr va] te] cl]] & w0 & H52 & Hrun).
  apply bind_Return_inv in Hrun as (g1 & wa & H4 & Hrun).
  apply bind_Return_inv in Hrun as (net0 & wb & H5 & Hrun).
  injection Hrun as -> -> -> -> -> -> -> ->.
  rewrite (run_main_from_52 _ _ _ _ _ _ _ _ _ H52).
  by rewrite (run_bind_Return _ _ _ _ _ H4), (run_bind_Return _ _ _ _ _ H5).
Qed.

Lemma run_render_confusion_matrix (self : Model) (classes : list (string * Z))
    (w : world) :
  render_confusion_matrix ext self classes w =
  match compute ext (confusion_matrix self) with
  | Return data =>
      (Return (),
       World (trace w ++ [ComputeMetric (confusion_matrix self);
                          SaveFig "confusion_matrix.png"; CloseFig])
             None
             (<["confusion_matrix.png" := heatmap_figure data (map fst classes)]>
                (files w)))
  | Exit c =>
      (Exit c, World (trace w ++ [ComputeMetric (confusion_matrix self)])
                     (Some (blank_figure (8 # 1, 6 # 1))) (files w))
  | Raise e =>
      (Raise e, World (trace w ++ [ComputeMetric (confusion_matrix self)])
                      (Some (blank_figure (8 # 1, 6 # 1))) (files w))
  end.
Proof.
  unfold render_confusion_matrix.
  rewrite run_bind. unfold set_figure at 1. cbv beta iota.
  rewrite run_bind, run_call.
  destruct (compute ext (confusion_matrix self)) as [data|c|e]; try reflexivity.
  unfold logged, on_axes, savefig, close, set_figure, write_file, heatmap_figure.
  repeat (rewrite run_bind; simpl).
  by rewrite <- !app_assoc.
Qed.

Lemma traces_render_confusion_matrix (self : Model) (classes : list (string * Z)) :
  traces (render_confusion_matrix ext self classes).
Proof.
  intros w. rewrite run_render_confusion_matrix.
  destruct (compute ext (confusion_matrix self)); simpl;
    eexists; (split; [reflexivity | by repeat constructor]).
Qed.

Lemma traces_evaluate (config : Config) (g : globals) (net : torch_module)
    (test : list batch) (classes : list (string * Z)) :
  g_num_classes g = Some 10 →
  traces (evaluate ext config g net test classes).
Proof.
  intros Hg. unfold evaluate.
  eapply traces_bind; [by apply emits_load_weights|]. intros self _.
  eapply traces_bind; [apply emits_test_loop|]. intros self' _.
  eapply traces_bind; [apply emits_report_metrics|]. intros _ _.
  apply traces_render_confusion_matrix.
Qed.

Lemma traces_main (argv : list string) : traces (main ext argv).
Proof.
  unfold main.
  eapply traces_bind; [apply emits_load_configuration|]. intros config _.
  eapply traces_bind; [apply emits_dataset_branch|]. intros g [_ ->].
  eapply traces_bind; [apply emits_build_loaders|].
  intros [[[train val] test] classes] _.
  eapply traces_bind; [apply emits_network_branch|]. intros g Hg.
  eapply traces_bind; [apply emits_build_model|]. intros net _.
  by apply traces_evaluate.
Qed.

(** *** Properties of the script *)

Lemma run_Model_init (g : globals) (n : Z) (net : torch_module) (c : loss_module)
    (w : world) :
  g_num_classes g = Some n →
  Model_init g net c w =
  (Return {| model := net; criterion := c;
             metrics :=
               [("accuracy", fresh_metric "Accuracy" n None);
                ("auc", fresh_metric "AUROC" n None);
                ("precision", fresh_metric "Precision" n (Some "macro"));
                ("recall", fresh_metric "Recall" n (Some "macro"))];
             confusion_matrix := fresh_metric "ConfusionMatrix" n None |},
   logged w [NewMetric (fresh_metric "Accuracy" n None);
             NewMetric (fresh_metric "Precision" n (Some "macro"));
             NewMetric (fresh_metric "Recall" n (Some "macro"));
             NewMetric (fresh_metric "AUROC" n None);
             NewMetric (fresh_metric "ConfusionMatrix" n None)]).
Proof.
  intros Hg. unfold Model_init, new_metric. rewrite Hg. simpl.
  repeat (rewrite run_bind; simpl; rewrite ?run_bind, ?run_log, ?logged_logged; simpl).
  reflexivity.
Qed.

Lemma driver_events_metrics (evs : list event) :
  Forall (λ ev, driver_event ev = true) evs →
  Forall (λ m, num_classes m = 10) (constructed_metrics evs).
Proof.
  induction 1 as [|ev evs Hev _ IH]; [constructor|].
  destruct ev; simpl; try exact IH.
  constructor; [|exact IH].
  unfold driver_event in Hev. simpl in Hev.
  by apply bool_decide_eq_true in Hev.
Qed.

Lemma driver_events_no_dataset_class (evs : list event) :
  Forall (λ ev, driver_event ev = true) evs →
  Forall (λ ev, dataset_class_event ev = false) evs.
Proof.
  intros H. eapply Forall_impl; [exact H|]. intros ev Hev. unfold driver_event in Hev.
  apply andb_prop in Hev as [Hev _]. by apply negb_true_iff in Hev.
Qed.

(** C3. When [config.network] is not "ResNet50" and the script has reached
    the network branch (its first 52 lines returned: the configuration was
    read, the dataset branch passed and the loaders were built), the branch
    prints its error line and returns with [network] still unbound; the
    script goes on to line 60, where evaluating the name [network] raises
    [NameError].  The printed line is the last thing recorded: no network
    is constructed, and the script does not leave through [exit]. *)
Theorem unsupported_network_prints_then_NameError
    (argv : list string) (config : Config) (g : globals)
    (train val : loader) (test : list batch) (classes : list (string * Z))
    (w w1 : world) :
  to_line_52 ext argv w = (Return (config, g, (train, val, test, classes)), w1) →
  network config ≠ "ResNet50" →
  network_branch config g w1
    = (Return g, logged w1 [Stdout unsupported_network_message])
  ∧ g_network g = None
  ∧ main ext argv w
    = (Raise (NameError "network"), logged w1 [Stdout unsupported_network_message]).
Proof.
  intros H52 Hnet.
  destruct (to_line_52_inv _ _ _ _ _ _ H52) as (w0 & _ & _ & Hg & _ & _).
  split_and!; [by apply run_network_branch_other | by rewrite Hg |].
  rewrite (run_main_from_52 _ _ _ _ _ _ _ _ _ H52).
  rewrite run_bind, run_network_branch_other by done.
  rewrite run_bind, run_build_model_unbound; [done | by rewrite Hg].
Qed.

(** C5. When [config.network] is "ResNet50" and the script has reached the
    network branch (its first 52 lines returned), the script imports
    [ResNet50] and calls it with [include_top = config.include_top],
    [weights = config.weights] and [num_classes] the class count the
    dataset branch bound for the selected dataset; what that call gives is
    the network, and the call is the next thing recorded, whatever the rest
    of the run does. *)
Theorem ResNet50_built_from_configuration
    (argv : list string) (config : Config) (g : globals)
    (train val : loader) (test : list batch) (classes : list (string * Z))
    (w w1 : world) :
  to_line_52 ext argv w = (Return (config, g, (train, val, test, classes)), w1) →
  network config = "ResNet50" →
  ∃ n : Z,
    (∀ w0, (dataset_branch config no_globals w0).1 = Return g) ∧
    g_num_classes g = Some n ∧
    (g' ← network_branch config g; build_model ext config g') w1
    = (ResNet50 ext (include_top config) (weights config) n,
       logged w1 [ImportFrom "networks.resnet50" "ResNet50";
                  NewResNet50 (include_top config) (weights config) n]) ∧
    ∃ evs : list event,
      trace (main ext argv w).2 =
      (trace w1 ++
       [ImportFrom "networks.resnet50" "ResNet50";
        NewResNet50 (include_top config) (weights config) n] ++ evs)%list.
Proof.
  intros H52 Hnet.
  destruct (to_line_52_inv _ _ _ _ _ _ H52) as (w0 & _ & Hds & Hg & _ & _).
  exists 10. split_and!.
  - intros w2. rewrite run_dataset_branch_CIFAR10 by done. by rewrite Hg.
  - by rewrite Hg.
  - rewrite run_bind, run_network_branch_ResNet50 by done.
    rewrite (run_build_model _ _ 10), logged_logged; [done | done | by rewrite Hg].
  - rewrite (run_main_from_52 _ _ _ _ _ _ _ _ _ H52).
    rewrite run_bind, run_network_branch_ResNet50 by done.
    rewrite run_bind, (run_build_model _ _ 10), logged_logged;
      [| done | by rewrite Hg].
    destruct (ResNet50 ext _ _ _) as [net|c|e].
    + destruct (traces_evaluate config
                  {| g_generate_dataset := g_generate_dataset g;
                     g_num_classes := g_num_classes g;
                     g_network := Some ResNet50_cls |} net test classes
                  ltac:(by rewrite Hg)
                  (logged w1
                     ([ImportFrom "networks.resnet50" "ResNet50"] ++
                      [NewResNet50 (include_top config) (weights config) 10])))
        as (evs & Hevs & _).
      exists evs. rewrite Hevs. simpl. by rewrite <- !app_assoc.
    + exists []. done.
    + exists []. done.
Qed.

(** C6. For a batch (inputs, target) on which the wrapped network gives
    [output], the criterion gives [loss] and the library accepts both
    updates, [test_step] calls the network on [inputs], then the criterion
    on (output, target), and lets go of the loss; then it updates the
    metric collection and the confusion matrix, each once, with (output,
    target): every member of the collection and the confusion matrix have
    exactly one more observation; the network, the criterion, the figure
    and the files are as before, and the value returned is [None]. *)
Theorem test_step_updates_each_accumulator_once
    (self : Model) (inputs target output loss : tensor) (batch_idx : Z) (w : world) :
  forward ext (model self) inputs = Return output →
  apply_criterion ext (criterion self) output target = Return loss →
  MetricCollection_update ext (metrics self) output target = Return () →
  Metric_update ext (confusion_matrix self) output target = Return () →
  ∃ self' : Model,
    test_step ext self (inputs, target) batch_idx w
    = (Return (self', None),
       logged w [Forward (model self) inputs; Criterion output target;
                 UpdateMetrics output target;
                 UpdateConfusionMatrix output target]) ∧
    model self' = model self ∧
    criterion self' = criterion self ∧
    one_more output target (confusion_matrix self) (confusion_matrix self') ∧
    Forall2 (λ old new, new.1 = old.1 ∧ one_more output target old.2 new.2)
            (metrics self) (metrics self').
Proof.
  intros Hfwd Hloss Hmetrics Hcm. eexists. split_and!.
  - unfold test_step, step, collection_update, update.
    rewrite run_bind, run_bind, run_call, Hfwd.
    rewrite run_bind, run_call, Hloss, logged_logged. simpl.
    rewrite run_bind, run_bind, run_call, Hmetrics, logged_logged. simpl.
    rewrite run_bind, run_bind, run_call, Hcm, logged_logged. reflexivity.
  - done.
  - done.
  - by repeat split.
  - simpl. unfold record_in_each. clear.
    induction (metrics self) as [|item rest IH]; simpl; [constructor|].
    constructor; [by repeat split | done].
Qed.

(** C8. The driver has its own dispatch: once the configuration is loaded
    (lines 22-37 returned), for every [config.dataset] other than the
    string "CIFAR10" it prints its own error line and exits with code 1,
    and nothing else is recorded after the configuration: no loader is
    built.  This includes "CIFAR100" and "CIFAR10_128", for which
    [load_dataset] imports and constructs a class.  No run of the driver,
    whatever the arguments and the environment, imports or constructs a
    dataset class, which is what every accepting run of [load_dataset]
    does. *)
Theorem driver_supports_only_CIFAR10
    (argv : list string) (config : Config) (w w1 : world) :
  load_configuration ext argv w = (Return config, w1) →
  dataset config ≠ "CIFAR10" →
  main ext argv w = (Exit 1, logged w1 [Stdout unsupported_dataset_message])
  ∧ (dataset config = "CIFAR100" ∨ dataset config = "CIFAR10_128" →
     ∀ Dataset_new w0, ∃ c,
       class_name c = dataset config ∧
       LoadDataset.load_dataset Dataset_new config w0 =
       (Dataset_new c (batch_size config) (validation_size config) (augment config),
        logged w0 [ImportFrom ("datasets." ++ class_name c) (class_name c);
                   NewDataset c (batch_size config, validation_size config,
                                 augment config)]))
  ∧ (∀ argv' w0, ∃ evs : list event,
       trace (main ext argv' w0).2 = (trace w0 ++ evs)%list ∧
       Forall (λ ev, dataset_class_event ev = false) evs).
Proof.
  intros Hcfg Hds. split_and!.
  - unfold main. rewrite (run_bind_Return _ _ _ _ _ Hcfg).
    by rewrite run_bind, run_dataset_branch_other.
  - intros Hd Dataset_new w0.
    destruct Hd as [Hd|Hd]; [exists cls_CIFAR100 | exists cls_CIFAR10_128];
      (split; [done | by apply load_dataset_class]).
  - intros argv' w0. destruct (traces_main argv' w0) as (evs & Hevs & Hall).
    exists evs. split; [done | by apply driver_events_no_dataset_class].
Qed.

(** C9. A run that passes the dataset branch has [num_classes] bound to
    the constant 10; [Model.__init__] then constructs Accuracy, Precision,
    Recall, AUROC and ConfusionMatrix, each with that [num_classes]; and in
    every run of the script, whatever the environment answers (the
    class-name mapping included), every metric constructed has
    [num_classes = 10]. *)
Theorem metrics_sized_by_constant_10 :
  (∀ config g w g' w',
     dataset_branch config g w = (Return g', w') → g_num_classes g' = Some 10)
  ∧ (∀ g net c w,
       g_num_classes g = Some 10 →
       ∃ self,
         Model_init g net c w =
         (Return self,
          logged w (NewMetric <$>
                      [fresh_metric "Accuracy" 10 None;
                       fresh_metric "Precision" 10 (Some "macro");
                       fresh_metric "Recall" 10 (Some "macro");
                       fresh_metric "AUROC" 10 None;
                       fresh_metric "ConfusionMatrix" 10 None])) ∧
         Forall (λ item, num_classes item.2 = 10) (metrics self) ∧
         length (metrics self) = 4%nat ∧
         num_classes (confusion_matrix self) = 10)
  ∧ (∀ argv w, ∃ evs : list event,
       trace (main ext argv w).2 = (trace w ++ evs)%list ∧
       Forall (λ m, num_classes m = 10) (constructed_metrics evs)).
Proof.
  split_and!.
  - intros config g w g' w' Hrun.
    destruct (emits_Return _ _ _ _ _ (emits_dataset_branch config g) Hrun)
      as (_ & _ & _ & _ & ->). done.
  - intros g net c w Hg. eexists. split; [by apply run_Model_init|].
    simpl. split_and!; [by repeat constructor | done | done].
  - intros argv w. destruct (traces_main argv w) as (evs & Hevs & Hall).
    exists evs. split; [done | by apply driver_events_metrics].
Qed.

(** C10. [--config_path] is declared without [required] and without
    [default].  With no arguments the parser neither exits nor reports a
    usage error: it returns a namespace whose [config_path] is [None],
    and [parse_json] is called with [None].  When that call raises, the
    exception is the outcome of the script: nothing handles it and
    nothing has been printed. *)
Theorem config_path_optional_without_default (e : exn) (w : world) :
  parse_json ext None = Raise e →
  Argparse.required parser = false
  ∧ Argparse.default parser = None
  ∧ Argparse.parse_args (argparse ext) parser [] w
    = (Return {| Argparse.config_path := None |}, w)
  ∧ main ext [] w = (Raise e, logged w [ParseJson None])
  ∧ printed (main ext [] w).2 = printed w.
Proof.
  intros Hraise.
  assert (Hmain : main ext [] w = (Raise e, logged w [ParseJson None])).
  { unfold main, load_configuration.
    rewrite run_bind, run_bind, run_parse_args_nil. simpl.
    by rewrite run_bind, run_call, Hraise. }
  split_and!; [done | done | done | done |].
  rewrite Hmain. unfold printed. simpl. rewrite omap_app. simpl. by rewrite app_nil_r.
Qed.


End DriverFacts.

(** ** The statements at definite inputs *)

Section AtDefiniteInputs.

Import TestDriver.

(** C1. With dataset "CIFAR10" and network "VGG16" the script prints the
    error line of the network branch last and ends in [NameError] for
    [network], raised at line 60: it does not leave through [exit].  With
    dataset "MNIST" it leaves through [exit(1)], as [load_dataset] does. *)
Theorem unsupported_network_is_not_a_clean_exit :
  main (Demo.env (Demo.config "CIFAR10" "VGG16")) Demo.argv Demo.fresh
  = (Raise (NameError "network"),
     World [ParseJson (Some "config.json"); SeedEverything 42;
            Stdout "[INFO] CUDA is not available. Training on CPU...";
            ImportFrom "datasets.CIFAR10" "generate_CIFAR10";
            GenerateDataset 64 (1 # 10) true;
            Stdout "[ERROR] Currently only ResNet50 network is supported. Exiting..."]
           None ∅)
  ∧ (main (Demo.env (Demo.config "MNIST" "ResNet50")) Demo.argv Demo.fresh).1 = Exit 1
  ∧ (LoadDataset.load_dataset Demo.Dataset_new (Demo.config "MNIST" "ResNet50")
       Demo.fresh).1 = Exit 1.
Proof. split_and!; reflexivity. Qed.

Lemma load_dataset_invalid_exits_1_witness :
  (dataset (Demo.config "MNIST" "ResNet50") ∉ Datasets.members)
  ∧ LoadDataset.load_dataset Demo.Dataset_new (Demo.config "MNIST" "ResNet50") Demo.fresh
    = (Exit 1, logged Demo.fresh [Stdout LoadDataset.invalid_dataset_message]).
Proof.
  assert (H : dataset (Demo.config "MNIST" "ResNet50") ∉ Datasets.members).
  { apply (bool_decide_unpack _). vm_compute. exact I. }
  split; [exact H|].
  exact (proj1 (load_dataset_invalid_exits_1 Demo.Dataset_new
                  (Demo.config "MNIST" "ResNet50") Demo.fresh H)).
Defined.

Lemma load_dataset_selects_named_class_witness :
  (dataset (Demo.config "CIFAR100" "ResNet50") ∈ Datasets.members)
  ∧ ∃ c : dataset_class,
      class_name c = "CIFAR100" ∧
      LoadDataset.load_dataset Demo.Dataset_new (Demo.config "CIFAR100" "ResNet50")
        Demo.fresh
      = (Demo.Dataset_new c 64 (1 # 10) true,
         logged Demo.fresh
           [ImportFrom ("datasets." ++ class_name c) (class_name c);
            NewDataset c (64, 1 # 10, true)]).
Proof.
  assert (H : dataset (Demo.config "CIFAR100" "ResNet50") ∈ Datasets.members).
  { apply (bool_decide_unpack _). vm_compute. exact I. }
  split; [exact H|].
  exact (load_dataset_selects_named_class Demo.Dataset_new
           (Demo.config "CIFAR100" "ResNet50") Demo.fresh H).
Defined.

Lemma unsupported_network_prints_then_NameError_witness :
  to_line_52 (Demo.env (Demo.config "CIFAR10" "VGG16")) Demo.argv Demo.fresh
  = (Return (Demo.config "CIFAR10" "VGG16", Demo.globals_at_line_52,
             (Loader 0, Loader 1, Demo.test_batches, Demo.classes)),
     Demo.after_line_52)
  ∧ network (Demo.config "CIFAR10" "VGG16") ≠ "ResNet50"
  ∧ main (Demo.env (Demo.config "CIFAR10" "VGG16")) Demo.argv Demo.fresh
    = (Raise (NameError "network"),
       logged Demo.after_line_52 [Stdout unsupported_network_message]).
Proof.
  assert (H : network (Demo.config "CIFAR10" "VGG16") ≠ "ResNet50") by discriminate.
  split_and!; [reflexivity | exact H |].
  exact (proj2 (proj2 (unsupported_network_prints_then_NameError
           (Demo.env (Demo.config "CIFAR10" "VGG16")) Demo.argv
           (Demo.config "CIFAR10" "VGG16") Demo.globals_at_line_52
           (Loader 0) (Loader 1) Demo.test_batches Demo.classes
           Demo.fresh Demo.after_line_52 eq_refl H))).
Defined.

Lemma ResNet50_built_from_configuration_witness :
  to_line_52 (Demo.env (Demo.config "CIFAR10" "ResNet50")) Demo.argv Demo.fresh
  = (Return (Demo.config "CIFAR10" "ResNet50", Demo.globals_at_line_52,
             (Loader 0, Loader 1, Demo.test_batches, Demo.classes)),
     Demo.after_line_52)
  ∧ ∃ n : Z,
      (∀ w0, (dataset_branch (Demo.config "CIFAR10" "ResNet50") no_globals w0).1
             = Return Demo.globals_at_line_52) ∧
      g_num_classes Demo.globals_at_line_52 = Some n ∧
      (g' ← network_branch (Demo.config "CIFAR10" "ResNet50") Demo.globals_at_line_52;
       build_model (Demo.env (Demo.config "CIFAR10" "ResNet50"))
         (Demo.config "CIFAR10" "ResNet50") g') Demo.after_line_52
      = (Return (TorchModule 0),
         logged Demo.after_line_52
           [ImportFrom "networks.resnet50" "ResNet50";
            NewResNet50 true (Some "IMAGENET1K_V2") n]) ∧
      ∃ evs : list event,
        trace (main (Demo.env (Demo.config "CIFAR10" "ResNet50")) Demo.argv
                 Demo.fresh).2 =
        (trace Demo.after_line_52 ++
         [ImportFrom "networks.resnet50" "ResNet50";
          NewResNet50 true (Some "IMAGENET1K_V2") n] ++ evs)%list.
Proof.
  split; [reflexivity|].
  exact (ResNet50_built_from_configuration
           (Demo.env (Demo.config "CIFAR10" "ResNet50")) Demo.argv
           (Demo.config "CIFAR10" "ResNet50") Demo.globals_at_line_52
           (Loader 0) (Loader 1) Demo.test_batches Demo.classes
           Demo.fresh Demo.after_line_52 eq_refl eq_refl).
Defined.

Lemma test_step_updates_each_accumulator_once_witness :
  ∃ self' : Model,
    test_step (Demo.env (Demo.config "CIFAR10" "ResNet50")) Demo.adapter
      (Tensor 12, Tensor 13) 1 Demo.fresh
    = (Return (self', None),
       logged Demo.fresh [Forward (TorchModule 1) (Tensor 12);
                          Criterion (Tensor 112) (Tensor 13);
                          UpdateMetrics (Tensor 112) (Tensor 13);
                          UpdateConfusionMatrix (Tensor 112) (Tensor 13)]) ∧
    model self' = TorchModule 1 ∧
    criterion self' = CrossEntropyLoss ∧
    one_more (Tensor 112) (Tensor 13)
      (confusion_matrix Demo.adapter) (confusion_matrix self') ∧
    Forall2 (λ old new, new.1 = old.1 ∧ one_more (Tensor 112) (Tensor 13) old.2 new.2)
            (metrics Demo.adapter) (metrics self').
Proof.
  exact (test_step_updates_each_accumulator_once
           (Demo.env (Demo.config "CIFAR10" "ResNet50")) Demo.adapter
           (Tensor 12) (Tensor 13) (Tensor 112) (Tensor 7) 1 Demo.fresh
           eq_refl eq_refl eq_refl eq_refl).
Defined.

Lemma driver_supports_only_CIFAR10_witness :
  load_configuration (Demo.env (Demo.config "CIFAR100" "ResNet50")) Demo.argv Demo.fresh
  = (Return (Demo.config "CIFAR100" "ResNet50"), Demo.after_line_37)
  ∧ dataset (Demo.config "CIFAR100" "ResNet50") ≠ "CIFAR10"
  ∧ main (Demo.env (Demo.config "CIFAR100" "ResNet50")) Demo.argv Demo.fresh
    = (Exit 1, logged Demo.after_line_37 [Stdout unsupported_dataset_message]).
Proof.
  assert (H : dataset (Demo.config "CIFAR100" "ResNet50") ≠ "CIFAR10") by discriminate.
  split_and!; [reflexivity | exact H |].
  exact (proj1 (driver_supports_only_CIFAR10
           (Demo.env (Demo.config "CIFAR100" "ResNet50")) Demo.argv
           (Demo.config "CIFAR100" "ResNet50") Demo.fresh Demo.after_line_37
           eq_refl H)).
Defined.

Lemma config_path_optional_without_default_witness :
  parse_json (Demo.env (Demo.config "CIFAR10" "ResNet50")) None
  = Raise Demo.missing_path_error
  ∧ main (Demo.env (Demo.config "CIFAR10" "ResNet50")) [] Demo.fresh
    = (Raise Demo.missing_path_error, logged Demo.fresh [ParseJson None]).
Proof.
  split; [reflexivity|].
  exact (proj1 (proj2 (proj2 (proj2 (config_path_optional_without_default
           (Demo.env (Demo.config "CIFAR10" "ResNet50"))
           Demo.missing_path_error Demo.fresh eq_refl))))).
Defined.


(** In that run the stale image is replaced by the heatmap with the three
    class names, no figure stays open, and the five metrics are built for
    10 classes although the mapping has 3. *)
Example stale_image_overwritten :
  let w' := (main (Demo.env (Demo.config "CIFAR10" "ResNet50")) Demo.argv
               Demo.with_stale_image).2 in
  files Demo.with_stale_image !! "confusion_matrix.png" = Some Demo.stale_figure
  ∧ files w' !! "confusion_matrix.png"
    = Some (heatmap_figure (Tensor 2) ["airplane"; "automobile"; "bird"])
  ∧ current_figure w' = None
  ∧ length Demo.classes = 3%nat
  ∧ (num_classes <$> constructed_metrics (trace w')) = [10; 10; 10; 10; 10].
Proof. vm_compute. split_and!; reflexivity. Qed.

(** Had the option been declared [required=True], no arguments would be a
    usage error with exit code 2. *)
Example required_option_is_enforced :
  (Argparse.parse_args (argparse (Demo.env (Demo.config "CIFAR10" "ResNet50")))
     {| Argparse.option_string := "--config_path"; Argparse.help := "";
        Argparse.required := true; Argparse.default := None |}
     [] Demo.fresh).1 = Exit 2.
Proof. reflexivity. Qed.

End AtDefiniteInputs.

(** ** More about test.py: the test pass and the report *)

Section PassFacts.

Import TestDriver.

Variable ext : externals.







Lemma printed_logged (w : world) (evs : list event) :
  printed (logged w evs)
  = (printed w ++ omap (λ ev, match ev with Stdout s => Some s | _ => None end) evs)%list.
Proof. unfold printed, logged. simpl. apply omap_app. Qed.

Lemma run_report_metrics
    (items : list (string * metric)) (values : list tensor) (w : world) :
  Forall2 (λ item value, compute ext item.2 = Return value) items values →
  report_metrics ext items w = (Return (), logged w (report_events ext items values))
  ∧ printed (report_metrics ext items w).2
    = (printed w ++ zip_with (report_line ext) items values)%list.
Proof.
  intros Hall.
  assert (Hrun : report_metrics ext items w
                 = (Return (), logged w (report_events ext items values))).
  { revert values w Hall.
    induction items as [|[name m] rest IH]; intros values w Hall.
    - apply Forall2_nil_inv_l in Hall as ->. simpl. by rewrite logged_nil.
    - apply Forall2_cons_inv_l in Hall as (value & vals & Hv & Hrest & ->).
      simpl in *. rewrite run_bind, run_call, Hv.
      unfold print. rewrite run_bind, run_log, logged_logged.
      rewrite (IH vals) by done. by rewrite logged_logged. }
  split; [exact Hrun|]. rewrite Hrun. simpl. rewrite printed_logged. f_equal.
  clear Hrun w. revert values Hall.
  induction items as [|item rest IH]; intros values Hall.
  - by apply Forall2_nil_inv_l in Hall as ->.
  - apply Forall2_cons_inv_l in Hall as (value & vals & _ & Hrest & ->).
    unfold report_events. simpl. f_equal. by apply IH.
Qed.


(** X3. When [compute()] returns for every member, the report makes one
    [compute()] call per member and prints one line per member, of the
    form "<name>: <value>", in the collection's order, and nothing else. *)
Theorem report_prints_one_line_per_metric
    (items : list (string * metric)) (values : list tensor) (w : world) :
  Forall2 (λ item value, compute ext item.2 = Return value) items values →
  report_metrics ext items w = (Return (), logged w (report_events ext items values))
  ∧ printed (report_metrics ext items w).2
    = (printed w ++ zip_with (report_line ext) items values)%list.
Proof. apply run_report_metrics. Qed.

End PassFacts.

(** ** More about test.py: whole runs *)

Section RunFacts.

Import TestDriver.

Variable ext : externals.


(** What a returning run went through. *)
Lemma main_Return_inv (argv : list string) (w w' : world) :
  main ext argv w = (Return (), w') →
  ∃ (ns : Argparse.Namespace) (config : Config) (train val : loader)
    (test : list batch) (classes : list (string * Z)) (net : torch_module)
    (w5 : world),
    Argparse.parse_args (argparse ext) parser argv w = (Return ns, w) ∧
    parse_json ext (Argparse.config_path ns) = Return config ∧
    dataset config = "CIFAR10" ∧
    generate_CIFAR10 ext (batch_size config) (validation_size config) (augment config)
      = Return (train, val, test, classes) ∧
    network config = "ResNet50" ∧
    ResNet50 ext (include_top config) (weights config) 10 = Return net ∧
    files w5 = files w ∧
    evaluate ext config
      {| g_generate_dataset := Some generate_CIFAR10_fn;
         g_num_classes := Some 10;
         g_network := Some ResNet50_cls |} net test classes w5
    = (Return (), w').
Proof.
  intros Hrun. unfold main in Hrun.
  apply bind_Return_inv in Hrun as (config & w1 & H1 & Hrun).
  apply bind_Return_inv in Hrun as (g & w2 & H2 & Hrun).
  apply bind_Return_inv in Hrun as ([[[train val] test] classes] & w3 & H3 & Hrun).
  apply bind_Return_inv in Hrun as (g' & w4 & H4 & Hrun).
  apply bind_Return_inv in Hrun as (net & w5 & H5 & Hrun).
  destruct (emits_Return _ _ _ _ _ (emits_load_configuration ext argv) H1)
    as (e1 & -> & _ & ns & Hns & Hcfg).
  destruct (emits_Return _ _ _ _ _ (emits_dataset_branch config no_globals) H2)
    as (e2 & -> & _ & Hds & ->).
  destruct (emits_Return _ _ _ _ _ (emits_build_loaders ext config _) H3)
    as (e3 & -> & _ & Hgen).
  assert (Hnet : network config = "ResNet50").
  { destruct (decide (network config = "ResNet50")) as [Hnet|Hnet]; [done|].
    rewrite run_network_branch_other in H4 by done.
    injection H4 as <- <-.
    by rewrite run_build_model_unbound in H5. }
  rewrite run_network_branch_ResNet50 in H4 by done. injection H4 as <- <-.
  destruct (emits_Return _ _ _ _ _ (emits_build_model ext config _) H5)
    as (e5 & -> & _ & n & [= <-] & Hnew).
  exists ns, config, train, val, test, classes, net. eexists.
  split_and!; [by apply Hns | done | done | done | done | done | | exact Hrun].
  done.
Qed.

(** X5. A run returns only on the one supported configuration: if the
    script returns, then argparse returned a namespace, [parse_json]
    returned a configuration for its path, and that configuration names
    dataset "CIFAR10" and network "ResNet50". *)
Theorem returning_run_has_supported_configuration
    (argv : list string) (w w' : world) :
  main ext argv w = (Return (), w') →
  ∃ (ns : Argparse.Namespace) (config : Config),
    Argparse.parse_args (argparse ext) parser argv w = (Return ns, w) ∧
    parse_json ext (Argparse.config_path ns) = Return config ∧
    dataset config = "CIFAR10" ∧
    network config = "ResNet50".
Proof.
  intros Hrun.
  destruct (main_Return_inv _ _ _ Hrun)
    as (ns & config & _ & _ & _ & _ & _ & _ & Hns & Hcfg & Hds & _ & Hnet & _).
  by exists ns, config.
Qed.




(** X6. When the script has built the network (its first 62 lines
    returned) and the checkpoint at "<weights_dir>/<weights_path>.ckpt"
    cannot be read, the exception is the outcome of the script, and the read
    is the last thing recorded: no batch is given to the network, no metric
    line is printed and nothing is drawn or saved. *)
Theorem unreadable_checkpoint_ends_the_run
    (argv : list string) (config : Config) (g : globals)
    (train val : loader) (test : list batch) (classes : list (string * Z))
    (net : torch_module) (e : exn) (w w1 : world) :
  to_line_62 ext argv w
    = (Return (config, g, (train, val, test, classes), net), w1) →
  torch_load ext (weights_dir config ++ "/" ++ weights_path config ++ ".ckpt")
    = Raise e →
  main ext argv w
  = (Raise e,
     logged w1
       [LoadCheckpoint (weights_dir config ++ "/" ++ weights_path config ++ ".ckpt")]).
Proof.
  intros H62 Hckpt. rewrite (run_main_from_62 _ _ _ _ _ _ _ _ _ _ _ H62).
  unfold evaluate, load_weights, load_from_checkpoint.
  by rewrite run_bind, run_bind, run_call, Hckpt.
Qed.

End RunFacts.

(** ** The further statements at definite inputs *)

Section FurtherAtDefiniteInputs.

Import TestDriver.


Lemma report_prints_one_line_per_metric_witness :
  Forall2 (λ item value,
             compute (Demo.env (Demo.config "CIFAR10" "ResNet50")) item.2 = Return value)
          (metrics Demo.adapter) [Tensor 1; Tensor 1]
  ∧ printed (report_metrics (Demo.env (Demo.config "CIFAR10" "ResNet50"))
               (metrics Demo.adapter) Demo.fresh).2
    = ["accuracy: tensor(1.)"; "auc: tensor(1.)"].
Proof.
  assert (H : Forall2 (λ item value,
                compute (Demo.env (Demo.config "CIFAR10" "ResNet50")) item.2
                = Return value)
              (metrics Demo.adapter) [Tensor 1; Tensor 1]).
  { repeat constructor. }
  split; [exact H|].
  exact (proj2 (report_prints_one_line_per_metric
                  (Demo.env (Demo.config "CIFAR10" "ResNet50"))
                  (metrics Demo.adapter) [Tensor 1; Tensor 1] Demo.fresh H)).
Defined.

Lemma returning_run_has_supported_configuration_witness :
  main (Demo.env (Demo.config "CIFAR10" "ResNet50")) Demo.argv Demo.fresh
  = (Return (),
     (main (Demo.env (Demo.config "CIFAR10" "ResNet50")) Demo.argv Demo.fresh).2)
  ∧ ∃ (ns : Argparse.Namespace) (config : Config),
      Argparse.parse_args (argparse (Demo.env (Demo.config "CIFAR10" "ResNet50")))
        parser Demo.argv Demo.fresh = (Return ns, Demo.fresh) ∧
      parse_json (Demo.env (Demo.config "CIFAR10" "ResNet50"))
        (Argparse.config_path ns) = Return config ∧
      dataset config = "CIFAR10" ∧
      network config = "ResNet50".
Proof.
  assert (H : main (Demo.env (Demo.config "CIFAR10" "ResNet50")) Demo.argv Demo.fresh
              = (Return (),
                 (main (Demo.env (Demo.config "CIFAR10" "ResNet50")) Demo.argv
                    Demo.fresh).2)).
  { vm_compute. reflexivity. }
  split; [exact H|].
  exact (returning_run_has_supported_configuration
           (Demo.env (Demo.config "CIFAR10" "ResNet50")) Demo.argv Demo.fresh _ H).
Defined.

Lemma unreadable_checkpoint_ends_the_run_witness :
  to_line_62 (Demo.env_without_checkpoint (Demo.config "CIFAR10" "ResNet50"))
    Demo.argv Demo.with_stale_image
  = (Return (Demo.config "CIFAR10" "ResNet50",
             {| g_generate_dataset := Some generate_CIFAR10_fn;
                g_num_classes := Some 10;
                g_network := Some ResNet50_cls |},
             (Loader 0, Loader 1, Demo.test_batches, Demo.classes),
             TorchModule 0),
     (to_line_62 (Demo.env_without_checkpoint (Demo.config "CIFAR10" "ResNet50"))
        Demo.argv Demo.with_stale_image).2)
  ∧ torch_load (Demo.env_without_checkpoint (Demo.config "CIFAR10" "ResNet50"))
      "weights/resnet50.ckpt" = Raise Demo.missing_checkpoint
  ∧ main (Demo.env_without_checkpoint (Demo.config "CIFAR10" "ResNet50")) Demo.argv
      Demo.with_stale_image
    = (Raise Demo.missing_checkpoint,
       logged (to_line_62 (Demo.env_without_checkpoint
                             (Demo.config "CIFAR10" "ResNet50"))
                 Demo.argv Demo.with_stale_image).2
         [LoadCheckpoint "weights/resnet50.ckpt"]).
Proof.
  assert (H : to_line_62 (Demo.env_without_checkpoint (Demo.config "CIFAR10" "ResNet50"))
                Demo.argv Demo.with_stale_image
              = (Return (Demo.config "CIFAR10" "ResNet50",
                         {| g_generate_dataset := Some generate_CIFAR10_fn;
                            g_num_classes := Some 10;
                            g_network := Some ResNet50_cls |},
                         (Loader 0, Loader 1, Demo.test_batches, Demo.classes),
                         TorchModule 0),
                 (to_line_62 (Demo.env_without_checkpoint
                                (Demo.config "CIFAR10" "ResNet50"))
                    Demo.argv Demo.with_stale_image).2)).
  { vm_compute. reflexivity. }
  split_and!; [exact H | reflexivity |].
  exact (unreadable_checkpoint_ends_the_run
           (Demo.env_without_checkpoint (Demo.config "CIFAR10" "ResNet50"))
           Demo.argv (Demo.config "CIFAR10" "ResNet50") _
           (Loader 0) (Loader 1) Demo.test_batches Demo.classes (TorchModule 0)
           Demo.missing_checkpoint Demo.with_stale_image _ H eq_refl).
Defined.


End FurtherAtDefiniteInputs.
